(** * Artifact path resolution of [tfx.utils.path_utils]

    A shallow embedding of [src/tfx/utils/path_utils.py].  Paths are Python
    [str] values, modelled as [string].  The module touches the outside world
    through three calls only: [fileio.exists], the directory listing behind
    [io_utils.get_only_uri_in_dir], and [absl.logging.warning]; they are the
    primitives of a small state-and-error monad over a [World] made of the
    storage and of the warnings logged so far. *)

From Stdlib Require Import String Ascii List Bool Arith Lia.
Import ListNotations.
Open Scope string_scope.

(** ** [os.path] (posixpath) *)

Module os_path.

Definition sep : string := "/".

(** [s.startswith(p)] *)
Definition startswith (s p : string) : bool := String.prefix p s.

(** [s.endswith(p)] *)
Definition endswith (s p : string) : bool :=
  Nat.leb (String.length p) (String.length s) &&
  String.eqb (substring (String.length s - String.length p) (String.length p) s) p.

(** One turn of the loop of [posixpath.join]:
    [if b.startswith(sep): path = b]
    [elif not path or path.endswith(sep): path += b]
    [else: path += sep + b]. *)
Definition join_step (path b : string) : string :=
  if startswith b sep then b
  else if String.eqb path EmptyString || endswith path sep then path ++ b
  else path ++ sep ++ b.

(** [os.path.join(a, *p)] *)
Definition join (a : string) (p : list string) : string :=
  fold_left join_step p a.

End os_path.

(** ** Errors, results and the world *)

Inductive Error : Type :=
| AmbiguousOrMissingExport (dir_path : string)
| StorageAccessError (detail : string)
| AssertionError (message : string).

Inductive Result (A : Type) : Type :=
| Ok (value : A)
| Raise (err : Error).

Arguments Ok {A} value.
Arguments Raise {A} err.

(** The storage access collaborator: an existence probe and a listing of the
    names of the immediate children of a directory.  Either may fail with an
    error of the storage itself. *)
Record Storage : Type := {
  fs_exists : string -> Result bool;
  fs_listdir : string -> Result (list string)
}.

Record World : Type := {
  storage : Storage;
  log : list string
}.

(** ** The monad of the resolver *)

Definition M (A : Type) : Type := World -> World * Result A.

Definition ret {A : Type} (a : A) : M A := fun w => (w, Ok a).

Definition raise {A : Type} (e : Error) : M A := fun w => (w, Raise e).

Definition bind {A B : Type} (m : M A) (k : A -> M B) : M B :=
  fun w =>
    match m w with
    | (w', Ok a) => k a w'
    | (w', Raise e) => (w', Raise e)
    end.

Declare Scope resolver_scope.
Delimit Scope resolver_scope with resolver.

Notation "x <- m ;; k" := (bind m (fun x => k))
  (at level 100, m at next level, right associativity) : resolver_scope.
Notation "m ;;; k" := (bind m (fun _ => k))
  (at level 100, right associativity) : resolver_scope.

Open Scope resolver_scope.

(** What a call returns or raises, and the world it leaves. *)
Definition outcome {A : Type} (m : M A) (w : World) : Result A := snd (m w).
Definition world_after {A : Type} (m : M A) (w : World) : World := fst (m w).

(** ** [fileio] and [absl.logging] *)

Module fileio.

(** [fileio.exists]; the name itself is a keyword here. *)
Definition exists_ (path : string) : M bool :=
  fun w => (w, fs_exists (storage w) path).

Definition listdir (path : string) : M (list string) :=
  fun w => (w, fs_listdir (storage w) path).

End fileio.

Module logging.

Definition warning (msg : string) : M unit :=
  fun w => ({| storage := storage w; log := log w ++ [msg] |}, Ok tt).

End logging.

(** ** [io_utils] *)

Module io_utils.

(** Modelled from the spec: [io_utils.get_only_uri_in_dir] is not part of the
    sources at hand.  The spec's single-subdirectory-entry helper: given a
    directory, list its immediate children; if exactly one exists, return
    its full path; otherwise signal the ambiguous-or-missing-export error. *)
Definition get_only_uri_in_dir (dir_path : string) : M string :=
  files <- fileio.listdir dir_path ;;
  match files with
  | [only] => ret (os_path.join dir_path [only])
  | _ => raise (AmbiguousOrMissingExport dir_path)
  end.

End io_utils.

(** ** [path_utils] *)

Definition _OLD_EVAL_MODEL_DIR : string := "eval_model_dir".
Definition _OLD_SERVING_MODEL_DIR : string := "serving_model_dir".
Definition EVAL_MODEL_DIR : string := "Format-TFMA".
Definition SERVING_MODEL_DIR : string := "Format-Serving".
Definition STAMPED_MODEL_DIR : string := "stamped_model".

(** The character closing the two warning texts, a double quote. *)
Definition dquote : string := String (ascii_of_nat 34) EmptyString.

Definition eval_deprecation_warning : string :=
  "Support for estimator-based executor and model"
  ++ " export will be deprecated soon. Please use"
  ++ " export structure "
  ++ "<ModelExportPath>/eval_model_dir/saved_model.pb" ++ dquote.

Definition serving_deprecation_warning : string :=
  "Support for estimator-based executor and model export"
  ++ " will be deprecated soon. Please use export structure "
  ++ "<ModelExportPath>/serving_model_dir/saved_model.pb" ++ dquote.

Definition eval_model_dir (output_uri : string) (is_old_artifact : bool) : string :=
  if is_old_artifact then os_path.join output_uri [_OLD_EVAL_MODEL_DIR]
  else os_path.join output_uri [EVAL_MODEL_DIR].

Definition serving_model_dir (output_uri : string) (is_old_artifact : bool) : string :=
  if is_old_artifact then os_path.join output_uri [_OLD_SERVING_MODEL_DIR]
  else os_path.join output_uri [SERVING_MODEL_DIR].

Definition serving_model_path (output_uri : string) (is_old_artifact : bool) : M string :=
  let model_dir := serving_model_dir output_uri is_old_artifact in
  let export_dir := os_path.join model_dir ["export"] in
  found <- fileio.exists_ export_dir ;;
  if found then
    logging.warning serving_deprecation_warning ;;;
    model_dir <- io_utils.get_only_uri_in_dir export_dir ;;
    io_utils.get_only_uri_in_dir model_dir
  else
    ret model_dir.

Definition eval_model_path (output_uri : string) (is_old_artifact : bool) : M string :=
  let model_dir := eval_model_dir output_uri is_old_artifact in
  let model_file := os_path.join model_dir ["saved_model.pb"] in
  found_file <- fileio.exists_ model_file ;;
  if found_file then ret model_dir
  else
    found_dir <- fileio.exists_ model_dir ;;
    if found_dir then
      logging.warning eval_deprecation_warning ;;;
      io_utils.get_only_uri_in_dir model_dir
    else
      serving_model_path output_uri is_old_artifact.

Definition stamped_model_path (output_uri : string) : string :=
  os_path.join output_uri [STAMPED_MODEL_DIR].

Definition warmup_file_path (saved_model_path : string) : string :=
  os_path.join saved_model_path ["assets.extra"; "tf_serving_warmup_requests"].

(** ** Artifact-version classification *)

(** [artifact.type] is a class; only its identity with
    [standard_artifacts.Model] is ever looked at. *)
Inductive ArtifactType : Type :=
| Model
| OtherArtifactType (type_name : string).

Definition ArtifactType_eqb (a b : ArtifactType) : bool :=
  match a, b with
  | Model, Model => true
  | OtherArtifactType n, OtherArtifactType m => String.eqb n m
  | _, _ => false
  end.

(** An artifact record: its type and the toolkit version recorded with it,
    if any. *)
Record Artifact : Type := {
  type : ArtifactType;
  tfx_version : option string
}.

Section ArtifactVersion.

(** [artifact_utils] is not part of the sources at hand: its comparison and
    its threshold constant are taken as given.  The comparison may raise. *)
Variable is_artifact_version_older_than : Artifact -> string -> Result bool.
Variable _ARTIFACT_VERSION_FOR_MODEL_UPDATE : string.

Definition is_old_model_artifact (model_artifact : Artifact) : Result bool :=
  if ArtifactType_eqb (type model_artifact) Model then
    is_artifact_version_older_than model_artifact _ARTIFACT_VERSION_FOR_MODEL_UPDATE
  else
    Raise (AssertionError "Wrong artifact type, only accept Model.").

End ArtifactVersion.

(** ** Vocabulary of the properties *)

(** The full path of the child named [name] of the directory [dir_path]. *)
Definition child_path (dir_path name : string) : string :=
  os_path.join dir_path [name].

(** [<serving_model_dir>/export] *)
Definition serving_export_dir (output_uri : string) (is_old_artifact : bool) : string :=
  child_path (serving_model_dir output_uri is_old_artifact) "export".

(** [<eval_model_dir>/saved_model.pb] *)
Definition eval_model_file (output_uri : string) (is_old_artifact : bool) : string :=
  child_path (eval_model_dir output_uri is_old_artifact) "saved_model.pb".

(** A call is stateless when, from a given storage, it always has the same
    outcome and logs the same warnings, whatever was logged before, and leaves
    a world that differs from the one it started from by those warnings only. *)
Definition stateless {A : Type} (m : M A) : Prop :=
  forall s : Storage, exists (emitted : list string) (r : Result A),
    forall l : list string,
      m {| storage := s; log := l |}
        = ({| storage := s; log := (l ++ emitted)%list |}, r).

(** Two calls in a row, the second from the world the first one left. *)
Definition second_call {A : Type} (m : M A) (w : World) : Result A :=
  outcome m (world_after m w).

(** The warnings a call adds to the log. *)
Definition emitted_by {A : Type} (m : M A) (w : World) : list string :=
  skipn (List.length (log w)) (log (world_after m w)).

(** From the world [w], a call can be repeated: a second call right after the
    first has the outcome of the first and logs the same warnings, the first
    leaves the storage of [w] untouched and only appends to the log, and the
    outcome is the same whatever was logged before. *)
Definition repeatable {A : Type} (m : M A) (w : World) : Prop :=
  second_call m w = outcome m w /\
  storage (world_after m w) = storage w /\
  log (world_after m w) = (log w ++ emitted_by m w)%list /\
  emitted_by m (world_after m w) = emitted_by m w /\
  forall earlier : list string,
    outcome m {| storage := storage w; log := earlier |} = outcome m w.

(** ** Finite storages, to run the resolvers on concrete trees *)

Fixpoint lookup_dir (dirs : list (string * list string)) (path : string)
  : option (list string) :=
  match dirs with
  | [] => None
  | (d, children) :: rest =>
      if String.eqb d path then Some children else lookup_dir rest path
  end.

(** The storage holding the directories [dirs], each with the names of its
    children, and the plain files [files]. *)
Definition tree_storage (dirs : list (string * list string)) (files : list string)
  : Storage :=
  {| fs_exists := fun path =>
       Ok (match lookup_dir dirs path with
           | Some _ => true
           | None => existsb (String.eqb path) files
           end);
     fs_listdir := fun path =>
       match lookup_dir dirs path with
       | Some children => Ok children
       | None => Raise (StorageAccessError path)
       end |}.

Definition fresh_world (s : Storage) : World := {| storage := s; log := [] |}.

(** A version comparison to run [is_old_model_artifact] with: an artifact
    with no recorded version is old, a recorded one is compared as text. *)
Definition sample_older_than (a : Artifact) (threshold : string) : Result bool :=
  match tfx_version a with
  | None => Ok true
  | Some v => Ok (String.ltb v threshold)
  end.

(** The legacy estimator layout of a current artifact:
    [export/<exporter name>/<timestamped model>] under the serving directory,
    and no evaluation model. *)
Definition legacy_serving_tree : Storage :=
  tree_storage
    [("/out", ["Format-Serving"]);
     ("/out/Format-Serving", ["export"]);
     ("/out/Format-Serving/export", ["my_exporter"]);
     ("/out/Format-Serving/export/my_exporter", ["1582072718"]);
     ("/out/Format-Serving/export/my_exporter/1582072718", ["saved_model.pb"])]
    ["/out/Format-Serving/export/my_exporter/1582072718/saved_model.pb"].

(** An [export] directory with nothing in it. *)
Definition empty_export_tree : Storage :=
  tree_storage
    [("/out", ["Format-Serving"]);
     ("/out/Format-Serving", ["export"]);
     ("/out/Format-Serving/export", [])]
    [].

(** An [export] directory with two exporters. *)
Definition two_exporters_tree : Storage :=
  tree_storage
    [("/out", ["Format-Serving"]);
     ("/out/Format-Serving", ["export"]);
     ("/out/Format-Serving/export", ["first"; "second"]);
     ("/out/Format-Serving/export/first", ["1582072718"]);
     ("/out/Format-Serving/export/second", ["1582072719"])]
    [].

(** The current layout: a flat SavedModel in each of the two directories. *)
Definition flat_tree : Storage :=
  tree_storage
    [("/out", ["Format-Serving"; "Format-TFMA"]);
     ("/out/Format-Serving", ["saved_model.pb"]);
     ("/out/Format-TFMA", ["saved_model.pb"])]
    ["/out/Format-Serving/saved_model.pb"; "/out/Format-TFMA/saved_model.pb"].

(** The legacy layout of an old artifact's evaluation model: a timestamped
    directory under [eval_model_dir]. *)
Definition legacy_eval_tree : Storage :=
  tree_storage
    [("/out", ["eval_model_dir"]);
     ("/out/eval_model_dir", ["1582072718"]);
     ("/out/eval_model_dir/1582072718", ["saved_model.pb"])]
    ["/out/eval_model_dir/1582072718/saved_model.pb"].

(** A serving model only, as the generic trainer leaves it. *)
Definition serving_only_tree : Storage :=
  tree_storage
    [("/out", ["Format-Serving"]);
     ("/out/Format-Serving", ["saved_model.pb"])]
    ["/out/Format-Serving/saved_model.pb"].

Definition examples_artifact : Artifact :=
  {| type := OtherArtifactType "Examples"; tfx_version := Some "0.21.4" |}.

Definition old_model_artifact : Artifact :=
  {| type := Model; tfx_version := Some "0.21.4" |}.

(** A child name is relative when it does not start with the separator:
    [os.path.join] then keeps what stands to its left. *)
Definition is_relative (name : string) : bool :=
  negb (os_path.startswith name os_path.sep).

(** Every listing of the storage holds relative names only. *)
Definition relative_listings (s : Storage) : Prop :=
  forall (dir_path : string) (names : list string),
    fs_listdir s dir_path = Ok names -> forallb is_relative names = true.

(** The world [serving_model_path] leaves on the legacy path. *)
Definition warned_serving (w : World) : World :=
  {| storage := storage w; log := (log w ++ [serving_deprecation_warning])%list |}.

(** The world [eval_model_path] leaves on the legacy path. *)
Definition warned_eval (w : World) : World :=
  {| storage := storage w; log := (log w ++ [eval_deprecation_warning])%list |}.

(** A storage that refuses every probe. *)
Definition denied_storage : Storage :=
  {| fs_exists := fun _ => Raise (StorageAccessError "permission denied");
     fs_listdir := fun _ => Raise (StorageAccessError "permission denied") |}.

(** A storage with nothing under the evaluation model's names, and whose
    probe of the evaluation directory itself times out. *)
Definition eval_dir_timeout_storage : Storage :=
  {| fs_exists := fun path =>
       if String.eqb path "/out/Format-TFMA"
       then Raise (StorageAccessError "timeout") else Ok false;
     fs_listdir := fun path => Raise (StorageAccessError path) |}.

(** [export] is a plain file: it exists and cannot be listed. *)
Definition export_is_file_tree : Storage :=
  tree_storage
    [("/out", ["Format-Serving"]);
     ("/out/Format-Serving", ["export"])]
    ["/out/Format-Serving/export"].

(** The exporter's directory is a plain file. *)
Definition exporter_is_file_tree : Storage :=
  tree_storage
    [("/out", ["Format-Serving"]);
     ("/out/Format-Serving", ["export"]);
     ("/out/Format-Serving/export", ["my_exporter"])]
    ["/out/Format-Serving/export/my_exporter"].

(** One exporter that holds two timestamped models. *)
Definition two_runs_tree : Storage :=
  tree_storage
    [("/out", ["Format-Serving"]);
     ("/out/Format-Serving", ["export"]);
     ("/out/Format-Serving/export", ["my_exporter"]);
     ("/out/Format-Serving/export/my_exporter", ["1582072718"; "1582072719"]);
     ("/out/Format-Serving/export/my_exporter/1582072718", ["saved_model.pb"]);
     ("/out/Format-Serving/export/my_exporter/1582072719", ["saved_model.pb"])]
    ["/out/Format-Serving/export/my_exporter/1582072718/saved_model.pb";
     "/out/Format-Serving/export/my_exporter/1582072719/saved_model.pb"].

(** An evaluation directory with nothing in it, next to a flat serving
    model. *)
Definition empty_eval_tree : Storage :=
  tree_storage
    [("/out", ["Format-Serving"; "Format-TFMA"]);
     ("/out/Format-Serving", ["saved_model.pb"]);
     ("/out/Format-TFMA", [])]
    ["/out/Format-Serving/saved_model.pb"].

(** The evaluation directory is a plain file. *)
Definition eval_is_file_tree : Storage :=
  tree_storage
    [("/out", ["Format-Serving"; "Format-TFMA"]);
     ("/out/Format-Serving", ["saved_model.pb"])]
    ["/out/Format-Serving/saved_model.pb"; "/out/Format-TFMA"].

(** * Properties *)

(** ** Running the primitives *)

Lemma run_exists (A : Type) (path : string) (k : bool -> M A) (w : World) (b : bool) :
  fs_exists (storage w) path = Ok b ->
  (found <- fileio.exists_ path ;; k found) w = k b w.
Proof.
  intros Hprobe. unfold bind, fileio.exists_. now rewrite Hprobe.
Qed.

Lemma run_warning (A : Type) (msg : string) (k : M A) (w : World) :
  (logging.warning msg ;;; k) w = k {| storage := storage w; log := log w ++ [msg] |}.
Proof. reflexivity. Qed.

Lemma run_get_only_uri_single (w : World) (dir_path name : string) :
  fs_listdir (storage w) dir_path = Ok [name] ->
  io_utils.get_only_uri_in_dir dir_path w = (w, Ok (child_path dir_path name)).
Proof.
  intros Hlist. unfold io_utils.get_only_uri_in_dir, bind, fileio.listdir.
  now rewrite Hlist.
Qed.

Lemma run_get_only_uri_not_single (w : World) (dir_path : string) (names : list string) :
  fs_listdir (storage w) dir_path = Ok names ->
  List.length names <> 1 ->
  io_utils.get_only_uri_in_dir dir_path w = (w, Raise (AmbiguousOrMissingExport dir_path)).
Proof.
  intros Hlist Hlen. unfold io_utils.get_only_uri_in_dir, bind, fileio.listdir.
  rewrite Hlist. destruct names as [|a [|b rest]]; try reflexivity.
  now elim Hlen.
Qed.

Lemma run_bind_ok (A B : Type) (m : M A) (k : A -> M B) (w w' : World) (a : A) :
  m w = (w', Ok a) -> (x <- m ;; k x) w = k a w'.
Proof. intros Hm. unfold bind. now rewrite Hm. Qed.

Lemma run_bind_raise (A B : Type) (m : M A) (k : A -> M B) (w w' : World) (e : Error) :
  m w = (w', Raise e) -> (x <- m ;; k x) w = (w', Raise e).
Proof. intros Hm. unfold bind. now rewrite Hm. Qed.

(** ** Lexical joins *)

(** Joining a name that does not start with the separator appends it, with a
    separator in between unless the left part is empty or already ends with
    one. *)
Lemma join_relative (a b : string) :
  os_path.startswith b os_path.sep = false ->
  os_path.join a [b] =
    if String.eqb a EmptyString || os_path.endswith a os_path.sep
    then a ++ b else a ++ "/" ++ b.
Proof.
  intros Hrel. unfold os_path.join, os_path.join_step. cbn [fold_left].
  now rewrite Hrel.
Qed.

Lemma append_length (a b : string) :
  String.length (a ++ b) = String.length a + String.length b.
Proof. induction a as [|c a IH]; cbn; [reflexivity | now rewrite IH]. Qed.

Lemma append_assoc (a b c : string) : (a ++ b) ++ c = a ++ b ++ c.
Proof. induction a as [|x a IH]; cbn; [reflexivity | now rewrite IH]. Qed.

Lemma substring_all (s : string) : substring 0 (String.length s) s = s.
Proof. induction s as [|c s IH]; cbn; [reflexivity | now rewrite IH]. Qed.

Lemma substring_after (a b : string) :
  substring (String.length a) (String.length b) (a ++ b) = b.
Proof. induction a as [|c a IH]; cbn; [apply substring_all | exact IH]. Qed.

(** What is appended last is what the result ends with. *)
Lemma endswith_append (a b : string) : os_path.endswith (a ++ b) b = true.
Proof.
  unfold os_path.endswith. rewrite append_length.
  replace (String.length a + String.length b - String.length b)
    with (String.length a) by lia.
  rewrite substring_after, String.eqb_refl, andb_true_r.
  apply Nat.leb_le. lia.
Qed.

Lemma join_relative_endswith (a b : string) :
  os_path.startswith b os_path.sep = false ->
  os_path.endswith (os_path.join a [b]) b = true.
Proof.
  intros Hrel. rewrite (join_relative _ _ Hrel).
  destruct (String.eqb a EmptyString || os_path.endswith a os_path.sep).
  - apply endswith_append.
  - rewrite <- append_assoc. apply endswith_append.
Qed.

(** Whatever the output location, the two model directories end with the
    directory name the flag selects. *)
Lemma model_dirs_end_with_name (output_uri : string) :
  os_path.endswith (serving_model_dir output_uri false) "Format-Serving" = true /\
  os_path.endswith (serving_model_dir output_uri true) "serving_model_dir" = true /\
  os_path.endswith (eval_model_dir output_uri false) "Format-TFMA" = true /\
  os_path.endswith (eval_model_dir output_uri true) "eval_model_dir" = true.
Proof.
  repeat split; apply join_relative_endswith; reflexivity.
Qed.

(** C5: [serving_model_dir] is [output_uri] joined with ["serving_model_dir"]
    for an old artifact and with ["Format-Serving"] otherwise; [eval_model_dir]
    is [output_uri] joined with ["eval_model_dir"] for an old artifact and
    with ["Format-TFMA"] otherwise.  Both are total functions of their two
    arguments alone: lifted into the resolver's monad they return their value
    from every world, and leave that world as it is. *)
Theorem model_dirs_are_joins (output_uri : string) :
  serving_model_dir output_uri true = os_path.join output_uri ["serving_model_dir"] /\
  serving_model_dir output_uri false = os_path.join output_uri ["Format-Serving"] /\
  eval_model_dir output_uri true = os_path.join output_uri ["eval_model_dir"] /\
  eval_model_dir output_uri false = os_path.join output_uri ["Format-TFMA"] /\
  forall (is_old_artifact : bool) (w : World),
    ret (serving_model_dir output_uri is_old_artifact) w
      = (w, Ok (serving_model_dir output_uri is_old_artifact)) /\
    ret (eval_model_dir output_uri is_old_artifact) w
      = (w, Ok (eval_model_dir output_uri is_old_artifact)).
Proof.
  repeat split.
Qed.

Lemma endswith_sep_cons (x y : ascii) (r : string) :
  os_path.endswith (String x (String y r)) os_path.sep
    = os_path.endswith (String y r) os_path.sep.
Proof.
  unfold os_path.endswith, os_path.sep.
  change (String.length "/") with 1.
  change (String.length (String x (String y r))) with (S (S (String.length r))).
  change (String.length (String y r)) with (S (String.length r)).
  replace (S (S (String.length r)) - 1) with (S (String.length r)) by lia.
  replace (S (String.length r) - 1) with (String.length r) by lia.
  reflexivity.
Qed.

Lemma endswith_sep_append (a : string) (c : ascii) (r : string) :
  os_path.endswith (a ++ String c r) os_path.sep
    = os_path.endswith (String c r) os_path.sep.
Proof.
  induction a as [|x a IH]; [reflexivity|].
  change (String x a ++ String c r) with (String x (a ++ String c r)).
  rewrite <- IH. destruct a as [|y a]; apply endswith_sep_cons.
Qed.

(** After a name that is not empty and does not end with the separator, a
    relative name is joined with a separator in between. *)
Lemma join_step_after_name (x : string) (c : ascii) (r b : string) :
  os_path.endswith (String c r) os_path.sep = false ->
  os_path.startswith b os_path.sep = false ->
  os_path.join_step (x ++ String c r) b = (x ++ String c r) ++ os_path.sep ++ b.
Proof.
  intros Hend Hrel. unfold os_path.join_step.
  rewrite Hrel, endswith_sep_append, Hend.
  now destruct x.
Qed.

(** The two-name join of [warmup_file_path], one separator at a time: the
    second name always comes after a separator, since the first never leaves
    the path empty or ending with one. *)
Lemma warmup_file_path_two_steps (saved_model_path : string) :
  warmup_file_path saved_model_path
    = os_path.join saved_model_path ["assets.extra"] ++ "/tf_serving_warmup_requests".
Proof.
  assert (Hform : exists x : string,
            os_path.join saved_model_path ["assets.extra"] = x ++ "assets.extra").
  { rewrite join_relative by reflexivity.
    destruct (String.eqb saved_model_path EmptyString
              || os_path.endswith saved_model_path os_path.sep).
    - now exists saved_model_path.
    - exists (saved_model_path ++ "/"). now rewrite append_assoc. }
  destruct Hform as [x Hx]. rewrite Hx.
  unfold warmup_file_path, os_path.join. cbn [fold_left].
  unfold os_path.join in Hx. cbn [fold_left] in Hx. rewrite Hx.
  now rewrite join_step_after_name.
Qed.

(** C7: [stamped_model_path] and [warmup_file_path] are purely lexical joins.
    For every argument, [stamped_model_path] is the join of the argument with
    ["stamped_model"] and [warmup_file_path] the join of the argument with
    ["assets.extra"] and ["tf_serving_warmup_requests"]; written out, each is
    the argument followed by the fixed suffix, with a separator in between
    unless the argument is empty or already ends with one.  So
    [stamped_model_path "/root"] is ["/root/stamped_model"] and
    [warmup_file_path "/root/serving"] is
    ["/root/serving/assets.extra/tf_serving_warmup_requests"].  Neither
    function is given the storage: from every world, whatever its storage
    holds, the value is that join and the world is left as it is. *)
Theorem stamped_and_warmup_are_lexical
  (output_uri saved_model_path : string) (w : World) :
  stamped_model_path output_uri = os_path.join output_uri ["stamped_model"] /\
  warmup_file_path saved_model_path
    = os_path.join saved_model_path ["assets.extra"; "tf_serving_warmup_requests"] /\
  stamped_model_path output_uri
    = (if String.eqb output_uri EmptyString || os_path.endswith output_uri "/"
       then output_uri ++ "stamped_model"
       else output_uri ++ "/stamped_model") /\
  warmup_file_path saved_model_path
    = (if String.eqb saved_model_path EmptyString
          || os_path.endswith saved_model_path "/"
       then saved_model_path ++ "assets.extra/tf_serving_warmup_requests"
       else saved_model_path ++ "/assets.extra/tf_serving_warmup_requests") /\
  stamped_model_path "/root" = "/root/stamped_model" /\
  warmup_file_path "/root/serving"
    = "/root/serving/assets.extra/tf_serving_warmup_requests" /\
  ret (stamped_model_path output_uri) w
    = (w, Ok (os_path.join output_uri ["stamped_model"])) /\
  ret (warmup_file_path saved_model_path) w
    = (w, Ok (os_path.join saved_model_path
                ["assets.extra"; "tf_serving_warmup_requests"])) /\
  ret (stamped_model_path "/root") w = (w, Ok "/root/stamped_model") /\
  ret (warmup_file_path "/root/serving") w
    = (w, Ok "/root/serving/assets.extra/tf_serving_warmup_requests").
Proof.
  split; [reflexivity|]. split; [reflexivity|].
  split.
  { unfold stamped_model_path, STAMPED_MODEL_DIR.
    now rewrite join_relative by reflexivity. }
  split.
  { rewrite warmup_file_path_two_steps, join_relative by reflexivity.
    unfold os_path.sep.
    destruct (String.eqb saved_model_path EmptyString
              || os_path.endswith saved_model_path "/");
      now rewrite !append_assoc. }
  repeat split.
Qed.

(** ** [serving_model_path] *)

(** C6: when [<serving_model_dir>/export] does not exist, [serving_model_path]
    returns [serving_model_dir], unchanged (and logs nothing). *)
Theorem serving_model_path_no_export
  (output_uri : string) (is_old_artifact : bool) (w : World) :
  fs_exists (storage w) (serving_export_dir output_uri is_old_artifact) = Ok false ->
  serving_model_path output_uri is_old_artifact w
    = (w, Ok (serving_model_dir output_uri is_old_artifact)).
Proof.
  intros Hprobe. unfold serving_model_path.
  now rewrite (run_exists _ _ _ _ _ Hprobe).
Qed.

Lemma serving_model_path_no_export_witness :
  fs_exists flat_tree (serving_export_dir "/out" false) = Ok false /\
  serving_model_path "/out" false (fresh_world flat_tree)
    = (fresh_world flat_tree, Ok "/out/Format-Serving").
Proof.
  split; [reflexivity|].
  exact (serving_model_path_no_export "/out" false (fresh_world flat_tree) eq_refl).
Defined.

(** C1: when [<serving_model_dir>/export] exists with exactly one child [A],
    which itself has exactly one child [B], [serving_model_path] returns the
    full path of [B]. *)
Theorem serving_model_path_legacy_layout
  (output_uri : string) (is_old_artifact : bool) (w : World) (A B : string) :
  fs_exists (storage w) (serving_export_dir output_uri is_old_artifact) = Ok true ->
  fs_listdir (storage w) (serving_export_dir output_uri is_old_artifact) = Ok [A] ->
  fs_listdir (storage w)
    (child_path (serving_export_dir output_uri is_old_artifact) A) = Ok [B] ->
  outcome (serving_model_path output_uri is_old_artifact) w
    = Ok (child_path (child_path (serving_export_dir output_uri is_old_artifact) A) B).
Proof.
  intros Hprobe HlistA HlistB. unfold outcome, serving_model_path.
  rewrite (run_exists _ _ _ _ _ Hprobe), run_warning.
  set (w' := {| storage := storage w; log := log w ++ [serving_deprecation_warning] |}).
  rewrite (run_bind_ok _ _ _ _ _ _ _ (run_get_only_uri_single w' _ _ HlistA)).
  now rewrite (run_get_only_uri_single w' _ _ HlistB).
Qed.

Lemma serving_model_path_legacy_layout_witness :
  fs_exists legacy_serving_tree "/out/Format-Serving/export" = Ok true /\
  fs_listdir legacy_serving_tree "/out/Format-Serving/export" = Ok ["my_exporter"] /\
  fs_listdir legacy_serving_tree "/out/Format-Serving/export/my_exporter"
    = Ok ["1582072718"] /\
  outcome (serving_model_path "/out" false) (fresh_world legacy_serving_tree)
    = Ok "/out/Format-Serving/export/my_exporter/1582072718".
Proof.
  repeat (split; [reflexivity|]).
  exact (serving_model_path_legacy_layout "/out" false (fresh_world legacy_serving_tree)
           "my_exporter" "1582072718" eq_refl eq_refl eq_refl).
Defined.

(** The serving-side resolution fails as soon as the listing of an existing
    [export] directory does not hold exactly one name. *)
Lemma serving_model_path_not_single
  (output_uri : string) (is_old_artifact : bool) (w : World) (children : list string) :
  fs_exists (storage w) (serving_export_dir output_uri is_old_artifact) = Ok true ->
  fs_listdir (storage w) (serving_export_dir output_uri is_old_artifact) = Ok children ->
  List.length children <> 1 ->
  outcome (serving_model_path output_uri is_old_artifact) w
    = Raise (AmbiguousOrMissingExport (serving_export_dir output_uri is_old_artifact)).
Proof.
  intros Hprobe Hlist Hlen. unfold outcome, serving_model_path.
  rewrite (run_exists _ _ _ _ _ Hprobe), run_warning.
  set (w' := {| storage := storage w; log := log w ++ [serving_deprecation_warning] |}).
  now rewrite (run_bind_raise _ _ _ _ _ _ _ (run_get_only_uri_not_single w' _ _ Hlist Hlen)).
Qed.

(** C2: when [<serving_model_dir>/export] exists but has no child, or two
    children or more, [serving_model_path] signals
    [AmbiguousOrMissingExport] and returns no path. *)
Theorem serving_model_path_ambiguous_export
  (output_uri : string) (is_old_artifact : bool) (w : World) (children : list string) :
  fs_exists (storage w) (serving_export_dir output_uri is_old_artifact) = Ok true ->
  fs_listdir (storage w) (serving_export_dir output_uri is_old_artifact) = Ok children ->
  List.length children = 0 \/ 2 <= List.length children ->
  outcome (serving_model_path output_uri is_old_artifact) w
    = Raise (AmbiguousOrMissingExport (serving_export_dir output_uri is_old_artifact)).
Proof.
  intros Hprobe Hlist Hcount.
  apply (serving_model_path_not_single _ _ _ _ Hprobe Hlist). lia.
Qed.

Lemma serving_model_path_ambiguous_export_witness :
  fs_exists empty_export_tree "/out/Format-Serving/export" = Ok true /\
  fs_listdir empty_export_tree "/out/Format-Serving/export" = Ok [] /\
  outcome (serving_model_path "/out" false) (fresh_world empty_export_tree)
    = Raise (AmbiguousOrMissingExport "/out/Format-Serving/export").
Proof.
  repeat (split; [reflexivity|]).
  exact (serving_model_path_ambiguous_export "/out" false (fresh_world empty_export_tree)
           [] eq_refl eq_refl (or_introl eq_refl)).
Defined.

(** ** [eval_model_path] *)

(** With neither the model file nor the model directory in storage,
    [eval_model_path] runs [serving_model_path] from the same world. *)
Lemma eval_model_path_runs_serving
  (output_uri : string) (is_old_artifact : bool) (w : World) :
  fs_exists (storage w) (eval_model_file output_uri is_old_artifact) = Ok false ->
  fs_exists (storage w) (eval_model_dir output_uri is_old_artifact) = Ok false ->
  eval_model_path output_uri is_old_artifact w
    = serving_model_path output_uri is_old_artifact w.
Proof.
  intros Hfile Hdir. unfold eval_model_path.
  now rewrite (run_exists _ _ _ _ _ Hfile), (run_exists _ _ _ _ _ Hdir).
Qed.

(** C3: when [<eval_model_dir>/saved_model.pb] exists, [eval_model_path]
    returns [eval_model_dir] unchanged; when that file does not exist but
    [<eval_model_dir>] exists with exactly one child [C], it returns the full
    path of [C]. *)
Theorem eval_model_path_flat_or_single_child
  (output_uri : string) (is_old_artifact : bool) (w : World) :
  (fs_exists (storage w) (eval_model_file output_uri is_old_artifact) = Ok true ->
   outcome (eval_model_path output_uri is_old_artifact) w
     = Ok (eval_model_dir output_uri is_old_artifact)) /\
  (forall C : string,
     fs_exists (storage w) (eval_model_file output_uri is_old_artifact) = Ok false ->
     fs_exists (storage w) (eval_model_dir output_uri is_old_artifact) = Ok true ->
     fs_listdir (storage w) (eval_model_dir output_uri is_old_artifact) = Ok [C] ->
     outcome (eval_model_path output_uri is_old_artifact) w
       = Ok (child_path (eval_model_dir output_uri is_old_artifact) C)).
Proof.
  split.
  - intros Hfile. unfold outcome, eval_model_path.
    now rewrite (run_exists _ _ _ _ _ Hfile).
  - intros C Hfile Hdir Hlist. unfold outcome, eval_model_path.
    rewrite (run_exists _ _ _ _ _ Hfile), (run_exists _ _ _ _ _ Hdir), run_warning.
    set (w' := {| storage := storage w; log := log w ++ [eval_deprecation_warning] |}).
    now rewrite (run_get_only_uri_single w' _ _ Hlist).
Qed.

Lemma eval_model_path_flat_or_single_child_witness :
  (fs_exists flat_tree "/out/Format-TFMA/saved_model.pb" = Ok true /\
   outcome (eval_model_path "/out" false) (fresh_world flat_tree)
     = Ok "/out/Format-TFMA") /\
  (fs_exists legacy_eval_tree "/out/eval_model_dir/saved_model.pb" = Ok false /\
   fs_exists legacy_eval_tree "/out/eval_model_dir" = Ok true /\
   fs_listdir legacy_eval_tree "/out/eval_model_dir" = Ok ["1582072718"] /\
   outcome (eval_model_path "/out" true) (fresh_world legacy_eval_tree)
     = Ok "/out/eval_model_dir/1582072718").
Proof.
  split; repeat (split; [reflexivity|]).
  - exact (proj1 (eval_model_path_flat_or_single_child "/out" false
                    (fresh_world flat_tree)) eq_refl).
  - exact (proj2 (eval_model_path_flat_or_single_child "/out" true
                    (fresh_world legacy_eval_tree))
             "1582072718" eq_refl eq_refl eq_refl).
Defined.

(** C4: when neither [<eval_model_dir>/saved_model.pb] nor [<eval_model_dir>]
    exists, [eval_model_path] equals [serving_model_path] on the same
    [output_uri], flag and storage: same outcome, same world left. *)
Theorem eval_model_path_falls_back_to_serving
  (output_uri : string) (is_old_artifact : bool) (w : World) :
  fs_exists (storage w) (eval_model_file output_uri is_old_artifact) = Ok false ->
  fs_exists (storage w) (eval_model_dir output_uri is_old_artifact) = Ok false ->
  outcome (eval_model_path output_uri is_old_artifact) w
    = outcome (serving_model_path output_uri is_old_artifact) w /\
  world_after (eval_model_path output_uri is_old_artifact) w
    = world_after (serving_model_path output_uri is_old_artifact) w.
Proof.
  intros Hfile Hdir. unfold outcome, world_after.
  now rewrite (eval_model_path_runs_serving _ _ _ Hfile Hdir).
Qed.

Lemma eval_model_path_falls_back_to_serving_witness :
  fs_exists serving_only_tree "/out/Format-TFMA/saved_model.pb" = Ok false /\
  fs_exists serving_only_tree "/out/Format-TFMA" = Ok false /\
  outcome (eval_model_path "/out" false) (fresh_world serving_only_tree)
    = outcome (serving_model_path "/out" false) (fresh_world serving_only_tree) /\
  world_after (eval_model_path "/out" false) (fresh_world serving_only_tree)
    = world_after (serving_model_path "/out" false) (fresh_world serving_only_tree).
Proof.
  do 2 (split; [reflexivity|]).
  exact (eval_model_path_falls_back_to_serving "/out" false
           (fresh_world serving_only_tree) eq_refl eq_refl).
Defined.

(** C10: the fallback can fail.  When neither [<eval_model_dir>/saved_model.pb]
    nor [<eval_model_dir>] exists and [<serving_model_dir>/export] exists with
    a number of children other than one, [eval_model_path] signals the
    ambiguous-export error and returns no path. *)
Theorem eval_model_path_fallback_can_fail
  (output_uri : string) (is_old_artifact : bool) (w : World) (children : list string) :
  fs_exists (storage w) (eval_model_file output_uri is_old_artifact) = Ok false ->
  fs_exists (storage w) (eval_model_dir output_uri is_old_artifact) = Ok false ->
  fs_exists (storage w) (serving_export_dir output_uri is_old_artifact) = Ok true ->
  fs_listdir (storage w) (serving_export_dir output_uri is_old_artifact) = Ok children ->
  List.length children <> 1 ->
  outcome (eval_model_path output_uri is_old_artifact) w
    = Raise (AmbiguousOrMissingExport (serving_export_dir output_uri is_old_artifact)).
Proof.
  intros Hfile Hdir Hprobe Hlist Hlen. unfold outcome.
  rewrite (eval_model_path_runs_serving _ _ _ Hfile Hdir).
  exact (serving_model_path_not_single _ _ _ _ Hprobe Hlist Hlen).
Qed.

Lemma eval_model_path_fallback_can_fail_witness :
  fs_exists two_exporters_tree "/out/Format-TFMA/saved_model.pb" = Ok false /\
  fs_exists two_exporters_tree "/out/Format-TFMA" = Ok false /\
  fs_exists two_exporters_tree "/out/Format-Serving/export" = Ok true /\
  fs_listdir two_exporters_tree "/out/Format-Serving/export" = Ok ["first"; "second"] /\
  outcome (eval_model_path "/out" false) (fresh_world two_exporters_tree)
    = Raise (AmbiguousOrMissingExport "/out/Format-Serving/export").
Proof.
  repeat (split; [reflexivity|]).
  refine (eval_model_path_fallback_can_fail "/out" false (fresh_world two_exporters_tree)
            ["first"; "second"] eq_refl eq_refl eq_refl eq_refl _).
  cbn. lia.
Defined.

(** ** Statelessness *)

Section Stateless.

Context {A B : Type}.

Lemma stateless_ret (a : A) : stateless (ret a).
Proof.
  intros s. exists [], (Ok a). intros l. unfold ret. now rewrite app_nil_r.
Qed.

Lemma stateless_raise (e : Error) : stateless (@raise A e).
Proof.
  intros s. exists [], (Raise e). intros l. unfold raise. now rewrite app_nil_r.
Qed.

Lemma stateless_bind (m : M A) (k : A -> M B) :
  stateless m -> (forall a, stateless (k a)) -> stateless (x <- m ;; k x).
Proof.
  intros Hm Hk s. destruct (Hm s) as (e1 & r1 & Hrun1).
  destruct r1 as [a|err].
  - destruct (Hk a s) as (e2 & r2 & Hrun2).
    exists (e1 ++ e2)%list, r2. intros l. unfold bind.
    now rewrite Hrun1, Hrun2, app_assoc.
  - exists e1, (Raise err). intros l. unfold bind. now rewrite Hrun1.
Qed.

End Stateless.

Lemma stateless_exists (path : string) : stateless (fileio.exists_ path).
Proof.
  intros s. exists [], (fs_exists s path). intros l.
  unfold fileio.exists_. cbn. now rewrite app_nil_r.
Qed.

Lemma stateless_listdir (path : string) : stateless (fileio.listdir path).
Proof.
  intros s. exists [], (fs_listdir s path). intros l.
  unfold fileio.listdir. cbn. now rewrite app_nil_r.
Qed.

Lemma stateless_warning (msg : string) : stateless (logging.warning msg).
Proof.
  intros s. exists [msg], (Ok tt). intros l. reflexivity.
Qed.

Create HintDb stateless_db.
#[local] Hint Resolve stateless_ret stateless_raise stateless_exists
  stateless_listdir stateless_warning : stateless_db.

Lemma stateless_get_only_uri_in_dir (dir_path : string) :
  stateless (io_utils.get_only_uri_in_dir dir_path).
Proof.
  unfold io_utils.get_only_uri_in_dir.
  apply stateless_bind; [auto with stateless_db|].
  intros [|a [|b rest]]; auto with stateless_db.
Qed.

#[local] Hint Resolve stateless_get_only_uri_in_dir : stateless_db.

Ltac stateless_step :=
  first
    [ solve [auto with stateless_db]
    | match goal with |- stateless (if ?b then _ else _) => destruct b end
    | apply stateless_bind; [|intro] ].

Lemma stateless_serving_model_path (output_uri : string) (is_old_artifact : bool) :
  stateless (serving_model_path output_uri is_old_artifact).
Proof. unfold serving_model_path. cbv zeta. repeat stateless_step. Qed.

#[local] Hint Resolve stateless_serving_model_path : stateless_db.

Lemma stateless_eval_model_path (output_uri : string) (is_old_artifact : bool) :
  stateless (eval_model_path output_uri is_old_artifact).
Proof. unfold eval_model_path. cbv zeta. repeat stateless_step. Qed.

Lemma skipn_length_app (T : Type) (l e : list T) :
  skipn (List.length l) (l ++ e)%list = e.
Proof. induction l as [|x l IH]; [reflexivity | exact IH]. Qed.

Lemma stateless_repeatable (A : Type) (m : M A) (w : World) :
  stateless m -> repeatable m w.
Proof.
  intros Hm. destruct w as [s l]. destruct (Hm s) as (e & r & Hrun).
  assert (Hemit : forall l0, emitted_by m {| storage := s; log := l0 |} = e).
  { intros l0. unfold emitted_by, world_after. rewrite Hrun. cbn.
    apply skipn_length_app. }
  assert (Hafter : forall l0, world_after m {| storage := s; log := l0 |}
                     = {| storage := s; log := (l0 ++ e)%list |}).
  { intros l0. unfold world_after. now rewrite Hrun. }
  assert (Hout : forall l0, outcome m {| storage := s; log := l0 |} = r).
  { intros l0. unfold outcome. now rewrite Hrun. }
  unfold repeatable, second_call. rewrite !Hafter, !Hemit, !Hout. cbn.
  repeat split. exact Hout.
Qed.

(** C8: every resolver operation is deterministic and stateless.  For each of
    [serving_model_dir], [serving_model_path], [eval_model_dir],
    [eval_model_path], [stamped_model_path] and [warmup_file_path], a second
    call with the same arguments, made right after the first, has the same
    outcome and logs the same warnings; the first call leaves the storage
    untouched and does nothing to the world but append its warnings to the
    log; and the outcome is the same from every world with that storage,
    whatever was logged before: the log is written, never read back. *)
Theorem resolvers_deterministic_and_stateless
  (output_uri saved_model_path : string) (is_old_artifact : bool) (w : World) :
  repeatable (ret (serving_model_dir output_uri is_old_artifact)) w /\
  repeatable (serving_model_path output_uri is_old_artifact) w /\
  repeatable (ret (eval_model_dir output_uri is_old_artifact)) w /\
  repeatable (eval_model_path output_uri is_old_artifact) w /\
  repeatable (ret (stamped_model_path output_uri)) w /\
  repeatable (ret (warmup_file_path saved_model_path)) w.
Proof.
  repeat split; try apply stateless_repeatable;
    auto using stateless_eval_model_path with stateless_db.
Qed.

(** ** [is_old_model_artifact] *)

Lemma ArtifactType_eqb_Model (t : ArtifactType) :
  ArtifactType_eqb t Model = true <-> t = Model.
Proof. destruct t; cbn; split; congruence. Qed.

(** C9: [is_old_model_artifact] accepts artifacts of type [Model] only.  On
    an artifact of any other type it fails with an assertion error, whatever
    the version comparison would have done; on a [Model] artifact it returns
    what the comparison of the artifact's recorded version with the fixed
    threshold gives. *)
Theorem is_old_model_artifact_asserts_model
  (is_artifact_version_older_than : Artifact -> string -> Result bool)
  (_ARTIFACT_VERSION_FOR_MODEL_UPDATE : string) (model_artifact : Artifact) :
  (type model_artifact <> Model ->
   is_old_model_artifact is_artifact_version_older_than
       _ARTIFACT_VERSION_FOR_MODEL_UPDATE model_artifact
     = Raise (AssertionError "Wrong artifact type, only accept Model.")) /\
  (type model_artifact = Model ->
   is_old_model_artifact is_artifact_version_older_than
       _ARTIFACT_VERSION_FOR_MODEL_UPDATE model_artifact
     = is_artifact_version_older_than model_artifact _ARTIFACT_VERSION_FOR_MODEL_UPDATE).
Proof.
  unfold is_old_model_artifact.
  destruct (ArtifactType_eqb (type model_artifact) Model) eqn:Htype.
  - apply ArtifactType_eqb_Model in Htype. split; intros H; [now elim H | reflexivity].
  - split; intros H; [reflexivity|].
    apply ArtifactType_eqb_Model in H. congruence.
Qed.

Lemma is_old_model_artifact_asserts_model_witness :
  (type examples_artifact <> Model /\
   is_old_model_artifact sample_older_than "0.23.0" examples_artifact
     = Raise (AssertionError "Wrong artifact type, only accept Model.")) /\
  (type old_model_artifact = Model /\
   is_old_model_artifact sample_older_than "0.23.0" old_model_artifact = Ok true).
Proof.
  assert (Hother : type examples_artifact <> Model) by (cbn; discriminate).
  split; split.
  - exact Hother.
  - exact (proj1 (is_old_model_artifact_asserts_model sample_older_than "0.23.0"
                    examples_artifact) Hother).
  - reflexivity.
  - exact (proj2 (is_old_model_artifact_asserts_model sample_older_than "0.23.0"
                    old_model_artifact) eq_refl).
Defined.

(** * Further properties of the resolvers *)

(** ** The runs of the two path resolvers, branch by branch *)

Lemma get_only_uri_in_dir_run (dir_path : string) (w : World) :
  io_utils.get_only_uri_in_dir dir_path w =
    (w, match fs_listdir (storage w) dir_path with
        | Raise e => Raise e
        | Ok [only] => Ok (child_path dir_path only)
        | Ok _ => Raise (AmbiguousOrMissingExport dir_path)
        end).
Proof.
  unfold io_utils.get_only_uri_in_dir, bind, fileio.listdir.
  destruct (fs_listdir (storage w) dir_path) as [[|a [|b rest]]|e]; reflexivity.
Qed.

Lemma serving_model_path_run (output_uri : string) (is_old_artifact : bool) (w : World) :
  serving_model_path output_uri is_old_artifact w =
    match fs_exists (storage w) (serving_export_dir output_uri is_old_artifact) with
    | Raise e => (w, Raise e)
    | Ok false => (w, Ok (serving_model_dir output_uri is_old_artifact))
    | Ok true =>
        (warned_serving w,
         match fs_listdir (storage w) (serving_export_dir output_uri is_old_artifact) with
         | Raise e => Raise e
         | Ok [A] =>
             match fs_listdir (storage w)
                     (child_path (serving_export_dir output_uri is_old_artifact) A) with
             | Raise e => Raise e
             | Ok [B] =>
                 Ok (child_path
                       (child_path (serving_export_dir output_uri is_old_artifact) A) B)
             | Ok _ =>
                 Raise (AmbiguousOrMissingExport
                          (child_path (serving_export_dir output_uri is_old_artifact) A))
             end
         | Ok _ =>
             Raise (AmbiguousOrMissingExport
                      (serving_export_dir output_uri is_old_artifact))
         end)
    end.
Proof.
  unfold serving_model_path. cbv zeta.
  fold (child_path (serving_model_dir output_uri is_old_artifact) "export").
  fold (serving_export_dir output_uri is_old_artifact).
  set (export_dir := serving_export_dir output_uri is_old_artifact).
  unfold bind at 1. unfold fileio.exists_ at 1.
  destruct (fs_exists (storage w) export_dir) as [[|]|e]; try reflexivity.
  rewrite run_warning. fold (warned_serving w).
  unfold bind. rewrite get_only_uri_in_dir_run.
  change (storage (warned_serving w)) with (storage w).
  destruct (fs_listdir (storage w) export_dir) as [[|A [|A' rest]]|e]; try reflexivity.
  rewrite get_only_uri_in_dir_run.
  change (storage (warned_serving w)) with (storage w).
  reflexivity.
Qed.

Lemma eval_model_path_run (output_uri : string) (is_old_artifact : bool) (w : World) :
  eval_model_path output_uri is_old_artifact w =
    match fs_exists (storage w) (eval_model_file output_uri is_old_artifact) with
    | Raise e => (w, Raise e)
    | Ok true => (w, Ok (eval_model_dir output_uri is_old_artifact))
    | Ok false =>
        match fs_exists (storage w) (eval_model_dir output_uri is_old_artifact) with
        | Raise e => (w, Raise e)
        | Ok true =>
            (warned_eval w,
             match fs_listdir (storage w) (eval_model_dir output_uri is_old_artifact) with
             | Raise e => Raise e
             | Ok [C] => Ok (child_path (eval_model_dir output_uri is_old_artifact) C)
             | Ok _ =>
                 Raise (AmbiguousOrMissingExport
                          (eval_model_dir output_uri is_old_artifact))
             end)
        | Ok false => serving_model_path output_uri is_old_artifact w
        end
    end.
Proof.
  unfold eval_model_path. cbv zeta.
  fold (child_path (eval_model_dir output_uri is_old_artifact) "saved_model.pb").
  fold (eval_model_file output_uri is_old_artifact).
  unfold bind at 1. unfold fileio.exists_ at 1.
  destruct (fs_exists (storage w) (eval_model_file output_uri is_old_artifact))
    as [[|]|e]; try reflexivity.
  unfold bind at 1. unfold fileio.exists_ at 1.
  destruct (fs_exists (storage w) (eval_model_dir output_uri is_old_artifact))
    as [[|]|e]; try reflexivity.
  rewrite run_warning. fold (warned_eval w).
  rewrite get_only_uri_in_dir_run.
  change (storage (warned_eval w)) with (storage w).
  reflexivity.
Qed.

(** ** Errors of the storage *)

(** X1: an error of the storage goes through [serving_model_path] as it is:
    from the probe of [export] (nothing is logged then), from the listing of
    [export], and from the listing of its only child. *)
Theorem serving_model_path_storage_error
  (output_uri : string) (is_old_artifact : bool) (w : World) (e : Error) :
  (fs_exists (storage w) (serving_export_dir output_uri is_old_artifact) = Raise e ->
   serving_model_path output_uri is_old_artifact w = (w, Raise e)) /\
  (fs_exists (storage w) (serving_export_dir output_uri is_old_artifact) = Ok true ->
   fs_listdir (storage w) (serving_export_dir output_uri is_old_artifact) = Raise e ->
   outcome (serving_model_path output_uri is_old_artifact) w = Raise e) /\
  (forall A : string,
   fs_exists (storage w) (serving_export_dir output_uri is_old_artifact) = Ok true ->
   fs_listdir (storage w) (serving_export_dir output_uri is_old_artifact) = Ok [A] ->
   fs_listdir (storage w)
     (child_path (serving_export_dir output_uri is_old_artifact) A) = Raise e ->
   outcome (serving_model_path output_uri is_old_artifact) w = Raise e).
Proof.
  unfold outcome. rewrite serving_model_path_run. repeat split.
  - intros Hprobe. now rewrite Hprobe.
  - intros Hprobe Hlist. now rewrite Hprobe, Hlist.
  - intros A Hprobe HlistA HlistB. now rewrite Hprobe, HlistA, HlistB.
Qed.

Lemma serving_model_path_storage_error_witness :
  (fs_exists denied_storage "/out/Format-Serving/export"
     = Raise (StorageAccessError "permission denied") /\
   serving_model_path "/out" false (fresh_world denied_storage)
     = (fresh_world denied_storage, Raise (StorageAccessError "permission denied"))) /\
  (fs_listdir export_is_file_tree "/out/Format-Serving/export"
     = Raise (StorageAccessError "/out/Format-Serving/export") /\
   outcome (serving_model_path "/out" false) (fresh_world export_is_file_tree)
     = Raise (StorageAccessError "/out/Format-Serving/export")) /\
  (fs_listdir exporter_is_file_tree "/out/Format-Serving/export/my_exporter"
     = Raise (StorageAccessError "/out/Format-Serving/export/my_exporter") /\
   outcome (serving_model_path "/out" false) (fresh_world exporter_is_file_tree)
     = Raise (StorageAccessError "/out/Format-Serving/export/my_exporter")).
Proof.
  split; [|split]; (split; [reflexivity|]).
  - exact (proj1 (serving_model_path_storage_error "/out" false
                    (fresh_world denied_storage) _) eq_refl).
  - exact (proj1 (proj2 (serving_model_path_storage_error "/out" false
                           (fresh_world export_is_file_tree) _)) eq_refl eq_refl).
  - exact (proj2 (proj2 (serving_model_path_storage_error "/out" false
                           (fresh_world exporter_is_file_tree) _))
             "my_exporter" eq_refl eq_refl eq_refl).
Defined.

(** X2: an error of the storage stops [eval_model_path]; it is no reason to
    fall back to the serving model.  The error of either probe is raised with
    nothing logged, and so is the error of the listing of the evaluation
    directory. *)
Theorem eval_model_path_storage_error
  (output_uri : string) (is_old_artifact : bool) (w : World) (e : Error) :
  (fs_exists (storage w) (eval_model_file output_uri is_old_artifact) = Raise e ->
   eval_model_path output_uri is_old_artifact w = (w, Raise e)) /\
  (fs_exists (storage w) (eval_model_file output_uri is_old_artifact) = Ok false ->
   fs_exists (storage w) (eval_model_dir output_uri is_old_artifact) = Raise e ->
   eval_model_path output_uri is_old_artifact w = (w, Raise e)) /\
  (fs_exists (storage w) (eval_model_file output_uri is_old_artifact) = Ok false ->
   fs_exists (storage w) (eval_model_dir output_uri is_old_artifact) = Ok true ->
   fs_listdir (storage w) (eval_model_dir output_uri is_old_artifact) = Raise e ->
   outcome (eval_model_path output_uri is_old_artifact) w = Raise e).
Proof.
  unfold outcome. rewrite eval_model_path_run. repeat split.
  - intros Hfile. now rewrite Hfile.
  - intros Hfile Hdir. now rewrite Hfile, Hdir.
  - intros Hfile Hdir Hlist. now rewrite Hfile, Hdir, Hlist.
Qed.

Lemma eval_model_path_storage_error_witness :
  (fs_exists denied_storage "/out/Format-TFMA/saved_model.pb"
     = Raise (StorageAccessError "permission denied") /\
   eval_model_path "/out" false (fresh_world denied_storage)
     = (fresh_world denied_storage, Raise (StorageAccessError "permission denied"))) /\
  (fs_exists eval_dir_timeout_storage "/out/Format-TFMA/saved_model.pb" = Ok false /\
   fs_exists eval_dir_timeout_storage "/out/Format-TFMA"
     = Raise (StorageAccessError "timeout") /\
   eval_model_path "/out" false (fresh_world eval_dir_timeout_storage)
     = (fresh_world eval_dir_timeout_storage, Raise (StorageAccessError "timeout"))) /\
  (fs_exists eval_is_file_tree "/out/Format-TFMA" = Ok true /\
   fs_listdir eval_is_file_tree "/out/Format-TFMA"
     = Raise (StorageAccessError "/out/Format-TFMA") /\
   outcome (eval_model_path "/out" false) (fresh_world eval_is_file_tree)
     = Raise (StorageAccessError "/out/Format-TFMA")).
Proof.
  split; [|split]; repeat (split; [reflexivity|]).
  - exact (proj1 (eval_model_path_storage_error "/out" false
                    (fresh_world denied_storage) _) eq_refl).
  - exact (proj1 (proj2 (eval_model_path_storage_error "/out" false
                           (fresh_world eval_dir_timeout_storage) _)) eq_refl eq_refl).
  - exact (proj2 (proj2 (eval_model_path_storage_error "/out" false
                           (fresh_world eval_is_file_tree) _)) eq_refl eq_refl eq_refl).
Defined.

(** ** Ambiguity below the first level *)

(** X3: when [export] holds exactly one child [A] but [A] holds no child, or
    two or more, [serving_model_path] signals the ambiguous-export error,
    and the error names the directory of [A], not [export]. *)
Theorem serving_model_path_ambiguous_run
  (output_uri : string) (is_old_artifact : bool) (w : World)
  (A : string) (runs : list string) :
  fs_exists (storage w) (serving_export_dir output_uri is_old_artifact) = Ok true ->
  fs_listdir (storage w) (serving_export_dir output_uri is_old_artifact) = Ok [A] ->
  fs_listdir (storage w)
    (child_path (serving_export_dir output_uri is_old_artifact) A) = Ok runs ->
  List.length runs <> 1 ->
  outcome (serving_model_path output_uri is_old_artifact) w
    = Raise (AmbiguousOrMissingExport
               (child_path (serving_export_dir output_uri is_old_artifact) A)).
Proof.
  intros Hprobe HlistA HlistB Hlen. unfold outcome.
  rewrite serving_model_path_run, Hprobe, HlistA, HlistB.
  destruct runs as [|B [|B' rest]]; try reflexivity. now elim Hlen.
Qed.

Lemma serving_model_path_ambiguous_run_witness :
  fs_listdir two_runs_tree "/out/Format-Serving/export" = Ok ["my_exporter"] /\
  fs_listdir two_runs_tree "/out/Format-Serving/export/my_exporter"
    = Ok ["1582072718"; "1582072719"] /\
  outcome (serving_model_path "/out" false) (fresh_world two_runs_tree)
    = Raise (AmbiguousOrMissingExport "/out/Format-Serving/export/my_exporter").
Proof.
  do 2 (split; [reflexivity|]).
  refine (serving_model_path_ambiguous_run "/out" false (fresh_world two_runs_tree)
            "my_exporter" ["1582072718"; "1582072719"] eq_refl eq_refl eq_refl _).
  cbn. lia.
Defined.

(** X4: an evaluation directory that exists without [saved_model.pb] and with
    no child, or with two or more, makes [eval_model_path] signal the
    ambiguous-export error on that directory: the serving model is not
    tried, whatever the storage holds for it. *)
Theorem eval_model_path_ambiguous_no_fallback
  (output_uri : string) (is_old_artifact : bool) (w : World) (children : list string) :
  fs_exists (storage w) (eval_model_file output_uri is_old_artifact) = Ok false ->
  fs_exists (storage w) (eval_model_dir output_uri is_old_artifact) = Ok true ->
  fs_listdir (storage w) (eval_model_dir output_uri is_old_artifact) = Ok children ->
  List.length children <> 1 ->
  eval_model_path output_uri is_old_artifact w
    = (warned_eval w,
       Raise (AmbiguousOrMissingExport (eval_model_dir output_uri is_old_artifact))).
Proof.
  intros Hfile Hdir Hlist Hlen.
  rewrite eval_model_path_run, Hfile, Hdir, Hlist.
  destruct children as [|C [|C' rest]]; try reflexivity. now elim Hlen.
Qed.

Lemma eval_model_path_ambiguous_no_fallback_witness :
  fs_exists empty_eval_tree "/out/Format-TFMA/saved_model.pb" = Ok false /\
  fs_exists empty_eval_tree "/out/Format-TFMA" = Ok true /\
  fs_listdir empty_eval_tree "/out/Format-TFMA" = Ok [] /\
  outcome (serving_model_path "/out" false) (fresh_world empty_eval_tree)
    = Ok "/out/Format-Serving" /\
  eval_model_path "/out" false (fresh_world empty_eval_tree)
    = (warned_eval (fresh_world empty_eval_tree),
       Raise (AmbiguousOrMissingExport "/out/Format-TFMA")).
Proof.
  do 4 (split; [reflexivity|]).
  refine (eval_model_path_ambiguous_no_fallback "/out" false (fresh_world empty_eval_tree)
            [] eq_refl eq_refl eq_refl _).
  cbn. lia.
Defined.

(** ** What is logged *)

(** X5: [serving_model_path] logs its deprecation warning, once, exactly when
    the probe of [export] answers yes, whether the resolution that follows
    succeeds or fails; it logs nothing when the probe answers no.  The
    storage is left as it is either way. *)
Theorem serving_model_path_warns_iff_export
  (output_uri : string) (is_old_artifact : bool) (w : World) (found : bool) :
  fs_exists (storage w) (serving_export_dir output_uri is_old_artifact) = Ok found ->
  world_after (serving_model_path output_uri is_old_artifact) w
    = if found then warned_serving w else w.
Proof.
  intros Hprobe. unfold world_after.
  rewrite serving_model_path_run, Hprobe. now destruct found.
Qed.

Lemma serving_model_path_warns_iff_export_witness :
  (fs_exists empty_export_tree "/out/Format-Serving/export" = Ok true /\
   log (world_after (serving_model_path "/out" false) (fresh_world empty_export_tree))
     = [serving_deprecation_warning]) /\
  (fs_exists flat_tree "/out/Format-Serving/export" = Ok false /\
   log (world_after (serving_model_path "/out" false) (fresh_world flat_tree)) = []).
Proof.
  split; (split; [reflexivity|]).
  - exact (f_equal log (serving_model_path_warns_iff_export "/out" false
                          (fresh_world empty_export_tree) true eq_refl)).
  - exact (f_equal log (serving_model_path_warns_iff_export "/out" false
                          (fresh_world flat_tree) false eq_refl)).
Defined.

(** X6: [eval_model_path] logs nothing when [saved_model.pb] is there, and
    exactly its own deprecation warning, never the serving one, when the
    file is missing and the evaluation directory exists, whatever the
    listing of that directory then gives. *)
Theorem eval_model_path_warnings
  (output_uri : string) (is_old_artifact : bool) (w : World) :
  (fs_exists (storage w) (eval_model_file output_uri is_old_artifact) = Ok true ->
   world_after (eval_model_path output_uri is_old_artifact) w = w) /\
  (fs_exists (storage w) (eval_model_file output_uri is_old_artifact) = Ok false ->
   fs_exists (storage w) (eval_model_dir output_uri is_old_artifact) = Ok true ->
   world_after (eval_model_path output_uri is_old_artifact) w = warned_eval w).
Proof.
  unfold world_after. rewrite eval_model_path_run. split.
  - intros Hfile. now rewrite Hfile.
  - intros Hfile Hdir. now rewrite Hfile, Hdir.
Qed.

Lemma eval_model_path_warnings_witness :
  (fs_exists flat_tree "/out/Format-TFMA/saved_model.pb" = Ok true /\
   log (world_after (eval_model_path "/out" false) (fresh_world flat_tree)) = []) /\
  (fs_exists legacy_eval_tree "/out/eval_model_dir/saved_model.pb" = Ok false /\
   fs_exists legacy_eval_tree "/out/eval_model_dir" = Ok true /\
   log (world_after (eval_model_path "/out" true) (fresh_world legacy_eval_tree))
     = [eval_deprecation_warning]).
Proof.
  split; repeat (split; [reflexivity|]).
  - exact (f_equal log (proj1 (eval_model_path_warnings "/out" false
                                 (fresh_world flat_tree)) eq_refl)).
  - exact (f_equal log (proj2 (eval_model_path_warnings "/out" true
                                 (fresh_world legacy_eval_tree)) eq_refl eq_refl)).
Defined.

(** ** The layout of the generic trainer *)

(** X7: with a serving model only, flat under its directory (no evaluation
    file, no evaluation directory, no [export]), [eval_model_path] returns
    [serving_model_dir] and logs nothing. *)
Theorem eval_model_path_serving_only_layout
  (output_uri : string) (is_old_artifact : bool) (w : World) :
  fs_exists (storage w) (eval_model_file output_uri is_old_artifact) = Ok false ->
  fs_exists (storage w) (eval_model_dir output_uri is_old_artifact) = Ok false ->
  fs_exists (storage w) (serving_export_dir output_uri is_old_artifact) = Ok false ->
  eval_model_path output_uri is_old_artifact w
    = (w, Ok (serving_model_dir output_uri is_old_artifact)).
Proof.
  intros Hfile Hdir Hexport.
  now rewrite eval_model_path_run, Hfile, Hdir, serving_model_path_run, Hexport.
Qed.

Lemma eval_model_path_serving_only_layout_witness :
  fs_exists serving_only_tree "/out/Format-TFMA/saved_model.pb" = Ok false /\
  fs_exists serving_only_tree "/out/Format-TFMA" = Ok false /\
  fs_exists serving_only_tree "/out/Format-Serving/export" = Ok false /\
  eval_model_path "/out" false (fresh_world serving_only_tree)
    = (fresh_world serving_only_tree, Ok "/out/Format-Serving").
Proof.
  do 3 (split; [reflexivity|]).
  exact (eval_model_path_serving_only_layout "/out" false
           (fresh_world serving_only_tree) eq_refl eq_refl eq_refl).
Defined.

(** ** What a returned path stands for *)

Lemma serving_model_path_ok_inv
  (output_uri : string) (is_old_artifact : bool) (w : World) (p : string) :
  outcome (serving_model_path output_uri is_old_artifact) w = Ok p ->
  (fs_exists (storage w) (serving_export_dir output_uri is_old_artifact) = Ok false /\
   p = serving_model_dir output_uri is_old_artifact) \/
  (fs_exists (storage w) (serving_export_dir output_uri is_old_artifact) = Ok true /\
   exists A B : string,
     fs_listdir (storage w) (serving_export_dir output_uri is_old_artifact) = Ok [A] /\
     fs_listdir (storage w)
       (child_path (serving_export_dir output_uri is_old_artifact) A) = Ok [B] /\
     p = child_path (child_path (serving_export_dir output_uri is_old_artifact) A) B).
Proof.
  unfold outcome. rewrite serving_model_path_run.
  destruct (fs_exists (storage w) (serving_export_dir output_uri is_old_artifact))
    as [[|]|e]; cbn [snd]; try discriminate.
  - destruct (fs_listdir (storage w) (serving_export_dir output_uri is_old_artifact))
      as [[|A [|A' rest]]|e] eqn:HlistA; try discriminate.
    destruct (fs_listdir (storage w)
                (child_path (serving_export_dir output_uri is_old_artifact) A))
      as [[|B [|B' rest]]|e] eqn:HlistB; try discriminate.
    intros Hp. injection Hp as <-. right. split; [reflexivity|].
    exists A, B. repeat split. exact HlistB.
  - intros Hp. injection Hp as <-. now left.
Qed.

(** X8: a path [serving_model_path] returns is always backed by the storage:
    either [export] does not exist and the path is [serving_model_dir], or
    [export] exists, holds exactly one child [A], [A] holds exactly one child
    [B], and the path is the full path of [B]. *)
Theorem serving_model_path_returns_resolved
  (output_uri : string) (is_old_artifact : bool) (w : World) (p : string) :
  outcome (serving_model_path output_uri is_old_artifact) w = Ok p ->
  (fs_exists (storage w) (serving_export_dir output_uri is_old_artifact) = Ok false /\
   p = serving_model_dir output_uri is_old_artifact) \/
  (fs_exists (storage w) (serving_export_dir output_uri is_old_artifact) = Ok true /\
   exists A B : string,
     fs_listdir (storage w) (serving_export_dir output_uri is_old_artifact) = Ok [A] /\
     fs_listdir (storage w)
       (child_path (serving_export_dir output_uri is_old_artifact) A) = Ok [B] /\
     p = child_path (child_path (serving_export_dir output_uri is_old_artifact) A) B).
Proof. exact (serving_model_path_ok_inv output_uri is_old_artifact w p). Qed.

Lemma serving_model_path_returns_resolved_witness :
  outcome (serving_model_path "/out" false) (fresh_world legacy_serving_tree)
    = Ok "/out/Format-Serving/export/my_exporter/1582072718" /\
  ((fs_exists legacy_serving_tree "/out/Format-Serving/export" = Ok false /\
    "/out/Format-Serving/export/my_exporter/1582072718" = "/out/Format-Serving") \/
   (fs_exists legacy_serving_tree "/out/Format-Serving/export" = Ok true /\
    exists A B : string,
      fs_listdir legacy_serving_tree "/out/Format-Serving/export" = Ok [A] /\
      fs_listdir legacy_serving_tree (child_path "/out/Format-Serving/export" A)
        = Ok [B] /\
      "/out/Format-Serving/export/my_exporter/1582072718"
        = child_path (child_path "/out/Format-Serving/export" A) B)).
Proof.
  split; [reflexivity|].
  exact (serving_model_path_returns_resolved "/out" false
           (fresh_world legacy_serving_tree)
           "/out/Format-Serving/export/my_exporter/1582072718" eq_refl).
Defined.

Lemma eval_model_path_ok_inv
  (output_uri : string) (is_old_artifact : bool) (w : World) (p : string) :
  outcome (eval_model_path output_uri is_old_artifact) w = Ok p ->
  (fs_exists (storage w) (eval_model_file output_uri is_old_artifact) = Ok true /\
   p = eval_model_dir output_uri is_old_artifact) \/
  (fs_exists (storage w) (eval_model_file output_uri is_old_artifact) = Ok false /\
   fs_exists (storage w) (eval_model_dir output_uri is_old_artifact) = Ok true /\
   exists C : string,
     fs_listdir (storage w) (eval_model_dir output_uri is_old_artifact) = Ok [C] /\
     p = child_path (eval_model_dir output_uri is_old_artifact) C) \/
  (fs_exists (storage w) (eval_model_file output_uri is_old_artifact) = Ok false /\
   fs_exists (storage w) (eval_model_dir output_uri is_old_artifact) = Ok false /\
   outcome (serving_model_path output_uri is_old_artifact) w = Ok p).
Proof.
  unfold outcome. rewrite eval_model_path_run.
  destruct (fs_exists (storage w) (eval_model_file output_uri is_old_artifact))
    as [[|]|e]; try discriminate.
  - intros Hp. injection Hp as <-. now left.
  - destruct (fs_exists (storage w) (eval_model_dir output_uri is_old_artifact))
      as [[|]|e]; try discriminate.
    + cbn [snd].
      destruct (fs_listdir (storage w) (eval_model_dir output_uri is_old_artifact))
        as [[|C [|C' rest]]|e] eqn:Hlist; try discriminate.
      intros Hp. injection Hp as <-. right. left.
      repeat split. now exists C.
    + intros Hp. right. right. now repeat split.
Qed.

(** X9: a path [eval_model_path] returns is always one of three: the
    evaluation directory, when [saved_model.pb] is in it; the full path of
    the only child of the evaluation directory, when the file is missing and
    the directory exists; or what [serving_model_path] returns, when neither
    exists. *)
Theorem eval_model_path_returns_resolved
  (output_uri : string) (is_old_artifact : bool) (w : World) (p : string) :
  outcome (eval_model_path output_uri is_old_artifact) w = Ok p ->
  (fs_exists (storage w) (eval_model_file output_uri is_old_artifact) = Ok true /\
   p = eval_model_dir output_uri is_old_artifact) \/
  (fs_exists (storage w) (eval_model_file output_uri is_old_artifact) = Ok false /\
   fs_exists (storage w) (eval_model_dir output_uri is_old_artifact) = Ok true /\
   exists C : string,
     fs_listdir (storage w) (eval_model_dir output_uri is_old_artifact) = Ok [C] /\
     p = child_path (eval_model_dir output_uri is_old_artifact) C) \/
  (fs_exists (storage w) (eval_model_file output_uri is_old_artifact) = Ok false /\
   fs_exists (storage w) (eval_model_dir output_uri is_old_artifact) = Ok false /\
   outcome (serving_model_path output_uri is_old_artifact) w = Ok p).
Proof. exact (eval_model_path_ok_inv output_uri is_old_artifact w p). Qed.

Lemma eval_model_path_returns_resolved_witness :
  outcome (eval_model_path "/out" true) (fresh_world legacy_eval_tree)
    = Ok "/out/eval_model_dir/1582072718" /\
  ((fs_exists legacy_eval_tree "/out/eval_model_dir/saved_model.pb" = Ok true /\
    "/out/eval_model_dir/1582072718" = "/out/eval_model_dir") \/
   (fs_exists legacy_eval_tree "/out/eval_model_dir/saved_model.pb" = Ok false /\
    fs_exists legacy_eval_tree "/out/eval_model_dir" = Ok true /\
    exists C : string,
      fs_listdir legacy_eval_tree "/out/eval_model_dir" = Ok [C] /\
      "/out/eval_model_dir/1582072718" = child_path "/out/eval_model_dir" C) \/
   (fs_exists legacy_eval_tree "/out/eval_model_dir/saved_model.pb" = Ok false /\
    fs_exists legacy_eval_tree "/out/eval_model_dir" = Ok false /\
    outcome (serving_model_path "/out" true) (fresh_world legacy_eval_tree)
      = Ok "/out/eval_model_dir/1582072718")).
Proof.
  split; [reflexivity|].
  exact (eval_model_path_returns_resolved "/out" true
           (fresh_world legacy_eval_tree) "/out/eval_model_dir/1582072718" eq_refl).
Defined.

(** ** Where the returned paths lie *)

Lemma prefix_append (a t : string) : String.prefix a (a ++ t) = true.
Proof.
  induction a as [|c a IH]; cbn; [now destruct t|].
  destruct (ascii_dec c c) as [_|Hneq]; [exact IH | now elim Hneq].
Qed.

(** Joining a relative name only adds to the right of the directory. *)
Lemma join_relative_extends (a b : string) :
  is_relative b = true -> exists t : string, os_path.join a [b] = a ++ t.
Proof.
  unfold is_relative. intros Hrel. apply negb_true_iff in Hrel.
  rewrite (join_relative _ _ Hrel).
  destruct (String.eqb a EmptyString || os_path.endswith a os_path.sep); eauto.
Qed.

Lemma extends_trans (a p q t : string) :
  p = a ++ t -> (exists t' : string, q = p ++ t') -> exists t'' : string, q = a ++ t''.
Proof.
  intros -> [t' ->]. exists (t ++ t'). apply append_assoc.
Qed.

Lemma serving_model_dir_extends (output_uri : string) (is_old_artifact : bool) :
  exists t : string, serving_model_dir output_uri is_old_artifact = output_uri ++ t.
Proof.
  unfold serving_model_dir. destruct is_old_artifact;
    apply join_relative_extends; reflexivity.
Qed.

Lemma eval_model_dir_extends (output_uri : string) (is_old_artifact : bool) :
  exists t : string, eval_model_dir output_uri is_old_artifact = output_uri ++ t.
Proof.
  unfold eval_model_dir. destruct is_old_artifact;
    apply join_relative_extends; reflexivity.
Qed.

Lemma only_child_relative (s : Storage) (dir_path name : string) :
  relative_listings s -> fs_listdir s dir_path = Ok [name] -> is_relative name = true.
Proof.
  intros Hrel Hlist. specialize (Hrel _ _ Hlist). cbn in Hrel.
  now rewrite andb_true_r in Hrel.
Qed.

Lemma serving_model_path_extends
  (output_uri : string) (is_old_artifact : bool) (w : World) (p : string) :
  relative_listings (storage w) ->
  outcome (serving_model_path output_uri is_old_artifact) w = Ok p ->
  exists t : string, p = serving_model_dir output_uri is_old_artifact ++ t.
Proof.
  intros Hrel Hp.
  destruct (serving_model_path_ok_inv _ _ _ _ Hp)
    as [[_ ->] | [_ (A & B & HlistA & HlistB & ->)]].
  - exists EmptyString. clear. induction (serving_model_dir output_uri is_old_artifact)
      as [|c s IH]; cbn; [reflexivity | now rewrite <- IH].
  - destruct (join_relative_extends (serving_model_dir output_uri is_old_artifact)
                "export" eq_refl) as [t1 H1].
    fold (child_path (serving_model_dir output_uri is_old_artifact) "export") in H1.
    fold (serving_export_dir output_uri is_old_artifact) in H1.
    eapply extends_trans; [exact H1|].
    destruct (join_relative_extends (serving_export_dir output_uri is_old_artifact) A
                (only_child_relative _ _ _ Hrel HlistA)) as [t2 H2].
    fold (child_path (serving_export_dir output_uri is_old_artifact) A) in H2.
    eapply extends_trans; [exact H2|].
    apply join_relative_extends. exact (only_child_relative _ _ _ Hrel HlistB).
Qed.

(** The listings of a finite storage are relative when its children are. *)
Lemma tree_storage_relative (dirs : list (string * list string)) (files : list string) :
  forallb (fun entry => forallb is_relative (snd entry)) dirs = true ->
  relative_listings (tree_storage dirs files).
Proof.
  intros Hdirs dir_path names. cbn.
  induction dirs as [|[d children] rest IH]; cbn; [discriminate|].
  cbn in Hdirs. apply andb_true_iff in Hdirs as [Hhere Hrest].
  destruct (String.eqb d dir_path).
  - intros Hlist. injection Hlist as <-. exact Hhere.
  - exact (IH Hrest).
Qed.

(** X10: when the storage lists relative names only, every path
    [serving_model_path] returns starts with [serving_model_dir], and so with
    [output_uri]: the resolution never leaves the artifact's directory. *)
Theorem serving_model_path_stays_under_model_dir
  (output_uri : string) (is_old_artifact : bool) (w : World) (p : string) :
  relative_listings (storage w) ->
  outcome (serving_model_path output_uri is_old_artifact) w = Ok p ->
  os_path.startswith p (serving_model_dir output_uri is_old_artifact) = true /\
  os_path.startswith p output_uri = true.
Proof.
  intros Hrel Hp.
  destruct (serving_model_path_extends _ _ _ _ Hrel Hp) as [t Ht].
  split.
  - rewrite Ht. apply prefix_append.
  - destruct (serving_model_dir_extends output_uri is_old_artifact) as [t0 H0].
    destruct (extends_trans _ _ _ _ H0 (ex_intro _ t Ht)) as [t' ->].
    apply prefix_append.
Qed.

Lemma serving_model_path_stays_under_model_dir_witness :
  relative_listings legacy_serving_tree /\
  outcome (serving_model_path "/out" false) (fresh_world legacy_serving_tree)
    = Ok "/out/Format-Serving/export/my_exporter/1582072718" /\
  os_path.startswith "/out/Format-Serving/export/my_exporter/1582072718"
    "/out/Format-Serving" = true /\
  os_path.startswith "/out/Format-Serving/export/my_exporter/1582072718" "/out" = true.
Proof.
  assert (Hrel : relative_listings legacy_serving_tree)
    by (apply tree_storage_relative; reflexivity).
  split; [exact Hrel|]. split; [reflexivity|].
  exact (serving_model_path_stays_under_model_dir "/out" false
           (fresh_world legacy_serving_tree)
           "/out/Format-Serving/export/my_exporter/1582072718" Hrel eq_refl).
Defined.

(** X11: when the storage lists relative names only, every path
    [eval_model_path] returns starts with [output_uri], and with
    [eval_model_dir] or [serving_model_dir]. *)
Theorem eval_model_path_stays_under_output_uri
  (output_uri : string) (is_old_artifact : bool) (w : World) (p : string) :
  relative_listings (storage w) ->
  outcome (eval_model_path output_uri is_old_artifact) w = Ok p ->
  os_path.startswith p output_uri = true /\
  (os_path.startswith p (eval_model_dir output_uri is_old_artifact) = true \/
   os_path.startswith p (serving_model_dir output_uri is_old_artifact) = true).
Proof.
  intros Hrel Hp.
  assert (Hcases :
    (exists t, p = eval_model_dir output_uri is_old_artifact ++ t) \/
    (exists t, p = serving_model_dir output_uri is_old_artifact ++ t)).
  { destruct (eval_model_path_ok_inv _ _ _ _ Hp)
      as [[_ ->] | [(_ & _ & C & Hlist & ->) | (_ & _ & Hserving)]].
    - left. exists EmptyString. clear.
      induction (eval_model_dir output_uri is_old_artifact) as [|c s IH]; cbn;
        [reflexivity | now rewrite <- IH].
    - left. apply join_relative_extends.
      exact (only_child_relative _ _ _ Hrel Hlist).
    - right. exact (serving_model_path_extends _ _ _ _ Hrel Hserving). }
  split.
  - destruct Hcases as [Hext | Hext].
    + destruct (eval_model_dir_extends output_uri is_old_artifact) as [t0 H0].
      destruct (extends_trans _ _ _ _ H0 Hext) as [t' ->]. apply prefix_append.
    + destruct (serving_model_dir_extends output_uri is_old_artifact) as [t0 H0].
      destruct (extends_trans _ _ _ _ H0 Hext) as [t' ->]. apply prefix_append.
  - destruct Hcases as [[t ->] | [t ->]]; [left | right]; apply prefix_append.
Qed.

Lemma eval_model_path_stays_under_output_uri_witness :
  relative_listings legacy_eval_tree /\
  outcome (eval_model_path "/out" true) (fresh_world legacy_eval_tree)
    = Ok "/out/eval_model_dir/1582072718" /\
  os_path.startswith "/out/eval_model_dir/1582072718" "/out" = true /\
  (os_path.startswith "/out/eval_model_dir/1582072718" "/out/eval_model_dir" = true \/
   os_path.startswith "/out/eval_model_dir/1582072718" "/out/serving_model_dir" = true).
Proof.
  assert (Hrel : relative_listings legacy_eval_tree)
    by (apply tree_storage_relative; reflexivity).
  split; [exact Hrel|]. split; [reflexivity|].
  exact (eval_model_path_stays_under_output_uri "/out" true
           (fresh_world legacy_eval_tree) "/out/eval_model_dir/1582072718" Hrel eq_refl).
Defined.

(** ** A trailing separator on the output location *)

Lemma join_step_trailing_sep (u b : string) :
  u <> EmptyString ->
  os_path.endswith u os_path.sep = false ->
  os_path.startswith b os_path.sep = false ->
  os_path.join_step (u ++ os_path.sep) b = os_path.join_step u b.
Proof.
  intros Hne Hend Hrel. unfold os_path.join_step.
  rewrite Hrel, Hend, endswith_append, orb_true_r.
  apply String.eqb_neq in Hne. rewrite Hne. cbn [orb].
  apply append_assoc.
Qed.

Lemma model_dirs_trailing_sep (output_uri : string) (is_old_artifact : bool) :
  output_uri <> EmptyString ->
  os_path.endswith output_uri os_path.sep = false ->
  serving_model_dir (output_uri ++ os_path.sep) is_old_artifact
    = serving_model_dir output_uri is_old_artifact /\
  eval_model_dir (output_uri ++ os_path.sep) is_old_artifact
    = eval_model_dir output_uri is_old_artifact.
Proof.
  intros Hne Hend. unfold serving_model_dir, eval_model_dir, os_path.join.
  cbn [fold_left].
  destruct is_old_artifact; split; now apply join_step_trailing_sep.
Qed.

(** X12: an output location written with a separator at its end names the
    same directories and files as the one written without: for every
    non-empty location that does not end with the separator,
    [serving_model_dir], [eval_model_dir], [stamped_model_path] and
    [warmup_file_path] give the same path with and without it. *)
Theorem lexical_paths_ignore_trailing_sep (output_uri : string) (is_old_artifact : bool) :
  output_uri <> EmptyString ->
  os_path.endswith output_uri os_path.sep = false ->
  serving_model_dir (output_uri ++ os_path.sep) is_old_artifact
    = serving_model_dir output_uri is_old_artifact /\
  eval_model_dir (output_uri ++ os_path.sep) is_old_artifact
    = eval_model_dir output_uri is_old_artifact /\
  stamped_model_path (output_uri ++ os_path.sep) = stamped_model_path output_uri /\
  warmup_file_path (output_uri ++ os_path.sep) = warmup_file_path output_uri.
Proof.
  intros Hne Hend.
  destruct (model_dirs_trailing_sep output_uri is_old_artifact Hne Hend) as [Hs He].
  split; [exact Hs|]. split; [exact He|].
  unfold stamped_model_path, warmup_file_path, os_path.join. cbn [fold_left].
  split; [now apply join_step_trailing_sep|].
  f_equal. now apply join_step_trailing_sep.
Qed.

Lemma lexical_paths_ignore_trailing_sep_witness :
  serving_model_dir "/out/" true = serving_model_dir "/out" true /\
  eval_model_dir "/out/" true = eval_model_dir "/out" true /\
  stamped_model_path "/out/" = stamped_model_path "/out" /\
  warmup_file_path "/out/" = warmup_file_path "/out".
Proof.
  refine (lexical_paths_ignore_trailing_sep "/out" true _ eq_refl). discriminate.
Defined.

(** X13: the same holds for the two resolvers that look at the storage: from
    every world, [serving_model_path] and [eval_model_path] have the same
    outcome and leave the same world for a location written with or without
    the separator at its end. *)
Theorem resolvers_ignore_trailing_sep
  (output_uri : string) (is_old_artifact : bool) (w : World) :
  output_uri <> EmptyString ->
  os_path.endswith output_uri os_path.sep = false ->
  serving_model_path (output_uri ++ os_path.sep) is_old_artifact w
    = serving_model_path output_uri is_old_artifact w /\
  eval_model_path (output_uri ++ os_path.sep) is_old_artifact w
    = eval_model_path output_uri is_old_artifact w.
Proof.
  intros Hne Hend.
  destruct (model_dirs_trailing_sep output_uri is_old_artifact Hne Hend) as [Hs He].
  assert (Hserving : serving_model_path (output_uri ++ os_path.sep) is_old_artifact w
                       = serving_model_path output_uri is_old_artifact w).
  { unfold serving_model_path. now rewrite Hs. }
  split; [exact Hserving|].
  rewrite !eval_model_path_run. unfold eval_model_file. now rewrite He, Hserving.
Qed.

Lemma resolvers_ignore_trailing_sep_witness :
  serving_model_path "/out/" false (fresh_world legacy_serving_tree)
    = serving_model_path "/out" false (fresh_world legacy_serving_tree) /\
  eval_model_path "/out/" false (fresh_world legacy_serving_tree)
    = eval_model_path "/out" false (fresh_world legacy_serving_tree).
Proof.
  refine (resolvers_ignore_trailing_sep "/out" false
            (fresh_world legacy_serving_tree) _ eq_refl).
  discriminate.
Defined.

(** ** The warm-up file *)

(** X14: for every [saved_model_path], empty or ending with a separator
    included, [warmup_file_path] is the join of the path with
    ["assets.extra"], followed by a separator and
    ["tf_serving_warmup_requests"]; so it always ends with
    ["assets.extra/tf_serving_warmup_requests"]. *)
Theorem warmup_file_path_suffix (saved_model_path : string) :
  warmup_file_path saved_model_path
    = os_path.join saved_model_path ["assets.extra"] ++ "/tf_serving_warmup_requests" /\
  os_path.endswith (warmup_file_path saved_model_path)
    "assets.extra/tf_serving_warmup_requests" = true.
Proof.
  assert (Hform : exists x : string,
            os_path.join saved_model_path ["assets.extra"] = x ++ "assets.extra").
  { rewrite join_relative by reflexivity.
    destruct (String.eqb saved_model_path EmptyString
              || os_path.endswith saved_model_path os_path.sep).
    - now exists saved_model_path.
    - exists (saved_model_path ++ "/"). now rewrite append_assoc. }
  destruct Hform as [x Hx].
  assert (Hwarm : warmup_file_path saved_model_path
                    = (x ++ "assets.extra") ++ "/tf_serving_warmup_requests").
  { unfold warmup_file_path, os_path.join. cbn [fold_left].
    unfold os_path.join in Hx. cbn [fold_left] in Hx. rewrite Hx.
    now rewrite join_step_after_name. }
  split.
  - now rewrite Hwarm, Hx.
  - rewrite Hwarm, append_assoc.
    exact (endswith_append x "assets.extra/tf_serving_warmup_requests").
Qed.

(** ** The directories never collide *)

Lemma append_inv_head (x a b : string) : x ++ a = x ++ b -> a = b.
Proof.
  induction x as [|c x IH]; cbn; [trivial|].
  intros H. injection H as H. exact (IH H).
Qed.

Lemma join_relative_inj (u a b : string) :
  os_path.startswith a os_path.sep = false ->
  os_path.startswith b os_path.sep = false ->
  os_path.join u [a] = os_path.join u [b] -> a = b.
Proof.
  intros Ha Hb. rewrite (join_relative _ _ Ha), (join_relative _ _ Hb).
  destruct (String.eqb u EmptyString || os_path.endswith u os_path.sep); intros H.
  - exact (append_inv_head _ _ _ H).
  - apply append_inv_head in H. now injection H.
Qed.

(** X15: under one output location the directories never coincide: the
    serving directory differs from the evaluation directory whatever the two
    flags, the legacy directory of each differs from its current one, and the
    stamped model's directory differs from all four. *)
Theorem model_dirs_never_collide (output_uri : string) (f f' : bool) :
  serving_model_dir output_uri f <> eval_model_dir output_uri f' /\
  serving_model_dir output_uri true <> serving_model_dir output_uri false /\
  eval_model_dir output_uri true <> eval_model_dir output_uri false /\
  stamped_model_path output_uri <> serving_model_dir output_uri f /\
  stamped_model_path output_uri <> eval_model_dir output_uri f'.
Proof.
  unfold serving_model_dir, eval_model_dir, stamped_model_path.
  repeat split; destruct f, f'; intros H;
    apply join_relative_inj in H; try reflexivity; discriminate H.
Qed.

(** ** [is_old_model_artifact], read backwards *)

(** X16: [is_old_model_artifact] gives an answer for [Model] artifacts only:
    whenever it returns a flag, the artifact is of type [Model] and the flag
    is the one the version comparison returned. *)
Theorem is_old_model_artifact_answers_only_for_model
  (is_artifact_version_older_than : Artifact -> string -> Result bool)
  (_ARTIFACT_VERSION_FOR_MODEL_UPDATE : string) (model_artifact : Artifact)
  (flag : bool) :
  is_old_model_artifact is_artifact_version_older_than
      _ARTIFACT_VERSION_FOR_MODEL_UPDATE model_artifact = Ok flag ->
  type model_artifact = Model /\
  is_artifact_version_older_than model_artifact _ARTIFACT_VERSION_FOR_MODEL_UPDATE
    = Ok flag.
Proof.
  unfold is_old_model_artifact.
  destruct (ArtifactType_eqb (type model_artifact) Model) eqn:Htype; [|discriminate].
  intros Hflag. split; [now apply ArtifactType_eqb_Model | exact Hflag].
Qed.

Lemma is_old_model_artifact_answers_only_for_model_witness :
  is_old_model_artifact sample_older_than "0.23.0" old_model_artifact = Ok true /\
  type old_model_artifact = Model /\
  sample_older_than old_model_artifact "0.23.0" = Ok true.
Proof.
  split; [reflexivity|].
  exact (is_old_model_artifact_answers_only_for_model sample_older_than "0.23.0"
           old_model_artifact true eq_refl).
Defined.
